(** * Stock Analysis App (src/app.py): rolling indicators and the buy/hold rule

    A shallow embedding of the first-party logic of [src/app.py]:
    [load_data], [key_levels], [make_decision] and the module-level
    indicator pipeline, together with the parts of pandas they call
    ([rolling], [pct_change], column assignment, [iloc[-1]], [pd.isnull]).

    Numbers.  [make_decision] converts five cells with [float(...)] and
    then only compares and multiplies Python floats, so the decision rule
    is modelled on binary64 itself (Rocq's primitive floats, the same
    IEEE 754 format and rounding).  The pandas aggregates are generic in
    the arithmetic (class [Arith]); a missing value (NaN in a float
    column) is [None]. *)

From Stdlib Require Import ZArith QArith Floats Lia.
From stdpp Require Import gmap strings list fin_maps pretty.

#[local] Set Warnings "-inexact-float".
Local Open Scope string_scope.

(** ** Python: exceptions and results *)

Module Py.

(** The exception classes the modelled code can raise; all of them are
    subclasses of [Exception]. *)
Inductive exn : Type :=
| KeyError (key : string)
| IndexError (msg : string)
| ValueError (msg : string)
| TypeError (msg : string).

(** A call either returns a value or raises. *)
Inductive result (A : Type) : Type :=
| Ok (a : A)
| Raise (e : exn).
Global Arguments Ok {A} a.
Global Arguments Raise {A} e.

Global Instance result_ret : MRet result := λ A a, Ok a.
Global Instance result_bind : MBind result := λ A B k m,
  match m with
  | Ok a => k a
  | Raise e => Raise e
  end.

(** [for x in xs: f(x)], collecting the values; the first exception
    propagates. *)
Fixpoint for_each {A B} (f : A → result B) (xs : list A)
  : result (list B) :=
  match xs with
  | [] => Ok []
  | x :: xs' => y ← f x; ys ← for_each f xs'; Ok (y :: ys)
  end.

(** [str(e)]: the message; a [KeyError] shows the repr of its key. *)
Definition str_exn (e : exn) : string :=
  match e with
  | KeyError key => "'" +:+ key +:+ "'"
  | IndexError msg | ValueError msg | TypeError msg => msg
  end.

(** A scalar found in a table cell, as far as the code observes it:
    [pd.isnull] and [float()] are the only two operations applied.
    - [CNull]: [None], [NaT] or [pd.NA];
    - [CFloat f]: a Python or numpy float (NaN included);
    - [CObj r]: any other object (an int, a string, a list, ...);
      [r] is what [float(o)] returns, [None] when it raises. *)
Inductive cell : Type :=
| CNull
| CFloat (f : float)
| CObj (as_float : option float).

(** [pd.isnull(c)] on a scalar. *)
Definition isnull (c : cell) : bool :=
  match c with
  | CNull => true
  | CFloat f => PrimFloat.is_nan f
  | CObj _ => false
  end.

(** [float(c)] *)
Definition float_ (c : cell) : result float :=
  match c with
  | CFloat f => Ok f
  | CObj (Some f) => Ok f
  | CObj None => Raise (ValueError "could not convert to float")
  | CNull => Raise (TypeError "float() argument must be a string or a real number")
  end.

End Py.
Import Py.

(** ** pandas: frames, rows and column access *)

Module Pandas.

(** A [DataFrame]: the row index (one date per bar, as a day number)
    and the columns by name; [C] is the type of a cell. *)
Record DataFrame (C : Type) : Type := mkDataFrame {
  index : list Z;
  columns : gmap string (list C)
}.
Global Arguments mkDataFrame {C} index columns.
Global Arguments index {C} d.
Global Arguments columns {C} d.

(** [len(df)]: the number of rows. *)
Definition len {C} (df : DataFrame C) : nat := length (index df).

(** [df.empty]: some axis has length 0. *)
Definition empty {C} (df : DataFrame C) : bool :=
  bool_decide (len df = 0%nat) || bool_decide (columns df = ∅).

(** [df[name]] *)
Definition getitem {C} (name : string) (df : DataFrame C)
  : result (list C) :=
  match columns df !! name with
  | Some col => Ok col
  | None => Raise (KeyError name)
  end.

(** [df[name] = col], for a column computed from [df] itself (so it
    carries the frame's index). *)
Definition setitem {C} (name : string) (col : list C) (df : DataFrame C)
  : DataFrame C :=
  mkDataFrame (index df) (<[name := col]> (columns df)).

(** [df.iloc[-1]]: the last row, a Series indexed by column name. *)
Definition iloc_last {C} (df : DataFrame C) : result (gmap string C) :=
  if bool_decide (len df = 0%nat)
  then Raise (IndexError "single positional indexer is out-of-bounds")
  else Ok (omap last (columns df)).

(** [row[name]] *)
Definition row_getitem {C} (name : string) (row : gmap string C)
  : result C :=
  match row !! name with
  | Some c => Ok c
  | None => Raise (KeyError name)
  end.

(** [row[[n1, n2, ...]]] *)
Definition row_select {C} (names : list string) (row : gmap string C)
  : result (list C) :=
  for_each (λ name, row_getitem name row) names.

(** [pd.isnull(values).any()] *)
Definition isnull_any (values : list cell) : bool :=
  existsb isnull values.

(** *** Numeric columns

    [rolling], [pct_change] and the aggregates are pandas' own code; they
    are modelled on pandas' documented behaviour, with the defaults the
    application leaves in place ([min_periods] = window size, [ddof=1]).

    The arithmetic a numeric column is computed in is a parameter: pandas
    is generic in the dtype and the application runs it at float64.  A
    missing value is tracked as [None]; an aggregate is written as the
    textbook formula over the window in row order (pandas updates running
    sums instead, which agrees with it up to float64 rounding). *)
Class Arith (num : Type) : Type := {
  nof_nat : nat → num;
  nadd : num → num → num;
  nsub : num → num → num;
  nmul : num → num → num;
  ndiv : num → num → num;
  nsqrt : num → num;
  nmax : num → num → num;
  nmin : num → num → num
}.

Section numeric.
Context {num : Type} `{Arith num}.

(** A numeric Series is a [list (option num)]: [None] is a missing
    value (NaN). *)

(** The rows a window of size [w] ending at row [t] covers:
    [t-w+1 .. t], cut off at the start of the column. *)
Definition window {A} (w t : nat) (xs : list A) : list A :=
  drop (S t - w) (take (S t) xs).

(** The values present in a window (missing ones are skipped). *)
Definition observations (xs : list (option num)) : list num := omap id xs.

(** [xs.rolling(window=w).agg()]: [min_periods] defaults to the
    window size, so the result is missing unless the window holds
    [w] observations; otherwise it aggregates them. *)
Definition rolling (w : nat) (agg : list num → num) (xs : list (option num))
  : list (option num) :=
  imap (λ t _,
          let obs := observations (window w t xs) in
          if bool_decide (w ≤ length obs)%nat then Some (agg obs) else None)
       xs.

Definition sum (xs : list num) : num := foldl nadd (nof_nat 0) xs.

(** [.mean()] *)
Definition mean (xs : list num) : num :=
  ndiv (sum xs) (nof_nat (length xs)).

(** [.var(ddof)]: squared deviations from the mean over [n - ddof]. *)
Definition var (ddof : nat) (xs : list num) : num :=
  let m := mean xs in
  ndiv (sum ((λ x, nmul (nsub x m) (nsub x m)) <$> xs))
       (nof_nat (length xs - ddof)).

(** [.std(ddof)]; pandas' default is [ddof=1]. *)
Definition std (ddof : nat) (xs : list num) : num := nsqrt (var ddof xs).

(** [.max()] and [.min()] of a non-empty window. *)
Definition maximum (xs : list num) : num :=
  match xs with
  | [] => nof_nat 0
  | x :: xs' => foldl nmax x xs'
  end.

Definition minimum (xs : list num) : num :=
  match xs with
  | [] => nof_nat 0
  | x :: xs' => foldl nmin x xs'
  end.

(** [xs.pct_change()]: [xs[t] / xs[t-1] - 1]; missing on the first
    row and wherever one of the two values is missing.  (pandas before
    3.0 first fills a missing value with the last one present; on a
    column without missing values there is no difference.) *)
Definition pct_change (xs : list (option num)) : list (option num) :=
  imap (λ t cur,
          match t with
          | O => None
          | S p =>
              match cur, xs !! p with
              | Some c, Some (Some prev) =>
                  Some (nsub (ndiv c prev) (nof_nat 1))
              | _, _ => None
              end
          end)
       xs.

End numeric.

(** float64 arithmetic. *)
Global Instance float_arith : Arith float := {|
  nof_nat n := PrimFloat.of_uint63 (Uint63.of_Z (Z.of_nat n));
  nadd := PrimFloat.add;
  nsub := PrimFloat.sub;
  nmul := PrimFloat.mul;
  ndiv := PrimFloat.div;
  nsqrt := PrimFloat.sqrt;
  nmax a b := if PrimFloat.ltb a b then b else a;
  nmin a b := if PrimFloat.ltb b a then b else a
|}.

(** A float64 cell read as a Python scalar: a missing value is NaN. *)
Definition to_cell (v : option float) : cell :=
  match v with
  | Some f => CFloat f
  | None => CFloat PrimFloat.nan
  end.

(** The same frame with every cell read as a Python scalar. *)
Definition to_cells (df : DataFrame (option float)) : DataFrame cell :=
  mkDataFrame (index df)
    ((λ col : list (option float), to_cell <$> col) <$> columns df).

End Pandas.
Import Pandas.

(** ** The decision rule (src/app.py, lines 47-70) *)

Module App.

(** The returned 5-tuple [(action, entry, take_profit, stop_loss, rr)];
    Python's [None] is [None]. *)
Definition Recommendation : Type :=
  string * option float * option float * option float * option Z.

Definition HOLD : Recommendation := ("HOLD", None, None, None, None).

Definition required : list string :=
  ["SMA_50"; "SMA_200"; "Volatility"; "Close"; "Support"].

(** [make_decision]; the [try ... except Exception: return HOLD] around
    the five conversions is the match on [converted]. *)
Definition make_decision (data : DataFrame cell) : result Recommendation :=
  if bool_decide (len data < 200)%nat then Ok HOLD else
  latest ← iloc_last data;
  (* Check for missing values in required indicators *)
  selected ← row_select required latest;
  if isnull_any selected then Ok HOLD else
  let converted :=
    sma_50 ← row_getitem "SMA_50" latest ≫= float_;
    sma_200 ← row_getitem "SMA_200" latest ≫= float_;
    volatility ← row_getitem "Volatility" latest ≫= float_;
    close ← row_getitem "Close" latest ≫= float_;
    support ← row_getitem "Support" latest ≫= float_;
    Ok (sma_50, sma_200, volatility, close, support) in
  match converted with
  | Raise _ => Ok HOLD
  | Ok (sma_50, sma_200, volatility, close, support) =>
      if (sma_200 <? sma_50)%float && (volatility <? 0.02)%float
         && (support <? close)%float
      then Ok ("BUY", Some close, Some (close * 1.02)%float,
               Some (close * 0.98)%float, Some 2%Z)
      else Ok HOLD
  end.

(** *** Loading and enriching a price history (lines 32-45, 75-79) *)

Section provider.
(** [yf.download(symbol, period=period)]: the external price-history
    provider; it returns a frame of float64 columns or raises. *)
Variable yf_download : string → string → result (DataFrame (option float)).

(** [load_data]; [reset_index], [pd.to_datetime] and [set_index]
    leave a date-indexed frame as it is.  ([st.cache_data] memoises
    returned frames only; an exception is raised again on each call.) *)
Definition load_data (symbol period : string)
  : result (DataFrame (option float)) :=
  df ← yf_download symbol period;
  if empty df
  then Raise (ValueError ("No data found for " +:+ symbol +:+ "."))
  else Ok df.
End provider.

Section pipeline.
Context {num : Type} `{Arith num}.

Definition key_levels (data : DataFrame (option num))
  : result (list (option num) * list (option num)) :=
  high_col ← getitem "High" data;
  let high := rolling 30 maximum high_col in
  low_col ← getitem "Low" data;
  let low := rolling 30 minimum low_col in
  Ok (high, low).

(** The five column assignments of lines 75-79, in order. *)
Definition indicators (df : DataFrame (option num))
  : result (DataFrame (option num)) :=
  close ← getitem "Close" df;
  let df := setitem "SMA_50" (rolling 50 mean close) df in
  close ← getitem "Close" df;
  let df := setitem "SMA_200" (rolling 200 mean close) df in
  close ← getitem "Close" df;
  let df := setitem "Daily Return" (pct_change close) df in
  daily_return ← getitem "Daily Return" df;
  let df := setitem "Volatility" (rolling 30 (std 1) daily_return) df in
  levels ← key_levels df;
  let df := setitem "Resistance" levels.1 df in
  let df := setitem "Support" levels.2 df in
  Ok df.
End pipeline.

(** *** Rendering (lines 72-143) *)

(** [round(num/den)] to the nearest integer, ties to even
    ([0 ≤ num], [0 < den]). *)
Definition round_half_even (num den : Z) : Z :=
  let q := (num / den)%Z in
  let r := (num mod den)%Z in
  if (2 * r <? den)%Z then q
  else if (den <? 2 * r)%Z then (q + 1)%Z
  else if Z.even q then q else (q + 1)%Z.

(** [|f| * 100] rounded to an integer, for a finite [f]: the digits
    that [f"{f:.2f}"] prints. *)
Definition hundredths (f : float) : option Z :=
  match Prim2SF f with
  | S754_zero _ => Some 0%Z
  | S754_finite _ m e =>
      Some (if (0 <=? e)%Z then (100 * Z.pos m * 2 ^ e)%Z
            else round_half_even (100 * Z.pos m) (2 ^ (- e)))
  | _ => None
  end.

Definition two_digits (d : Z) : string :=
  (if (d <? 10)%Z then "0" else "") +:+ pretty d.

(** [f"{f:.2f}"] for a float. *)
Definition format_2f (f : float) : string :=
  match Prim2SF f with
  | S754_nan => "nan"
  | S754_infinity s => if s then "-inf" else "inf"
  | S754_zero s | S754_finite s _ _ =>
      let h := default 0%Z (hundredths f) in
      (if s then "-" else "") +:+ pretty (h / 100)%Z +:+ "."
      +:+ two_digits (h mod 100)%Z
  end.

(** [f"{v:.2f}"] for a tuple field: [None] does not support the format. *)
Definition format_field (v : option float) : result string :=
  match v with
  | Some f => Ok (format_2f f)
  | None => Raise (TypeError "unsupported format string passed to NoneType.__format__")
  end.

(** [f"{rr}"] *)
Definition str_field (rr : option Z) : string :=
  match rr with
  | Some z => pretty z
  | None => "None"
  end.

(** What a run puts on the page below the symbol pickers. *)
Inductive widget : Type :=
| Subheader (text : string)
| Pyplot (title : string)
         (close sma_50 sma_200 support resistance : list (option float))
| TradingView (symbol_tv container_id : string)
| Markdown (html : string)
| Info (text : string)
| Error (text : string).

(** A stretch of the script: it appends to the page and returns or
    raises. *)
Definition script (A : Type) : Type := list widget → list widget * result A.

Global Instance script_ret : MRet script := λ A a page, (page, Ok a).
Global Instance script_bind : MBind script := λ A B k m page,
  match m page with
  | (page', Ok a) => k a page'
  | (page', Raise e) => (page', Raise e)
  end.

Definition emit (w : widget) : script unit := λ page, ((page ++ [w])%list, Ok ()).
Definition lift {A} (r : result A) : script A := λ page, (page, r).

Section run.
Variable yf_download : string → string → result (DataFrame (option float)).

Definition price_chart (final_symbol : string)
           (df : DataFrame (option float)) : result widget :=
  close ← getitem "Close" df;
  sma_50 ← getitem "SMA_50" df;
  sma_200 ← getitem "SMA_200" df;
  support ← getitem "Support" df;
  resistance ← getitem "Resistance" df;
  Ok (Pyplot (final_symbol +:+ " Stock Price Evolution")
             close sma_50 sma_200 support resistance).

Definition decision_box (r : Recommendation) : script unit :=
  let '(decision, entry, tp, sl, rr) := r in
  if bool_decide (decision = "BUY") then
    entry_s ← lift (format_field entry);
    tp_s ← lift (format_field tp);
    sl_s ← lift (format_field sl);
    emit (Markdown
      ("<div style='background-color:#1b4332;padding:10px;border-radius:8px;color:white'>"
       +:+ "<strong>BUY</strong> at $" +:+ entry_s
       +:+ " | <strong>TP:</strong> $" +:+ tp_s +:+ " | "
       +:+ "<strong>SL:</strong> $" +:+ sl_s
       +:+ " | <strong>RR:</strong> " +:+ str_field rr +:+ ":1"
       +:+ "</div>"))
  else emit (Info "Not worth it. HOLD.").

(** The body of the [try] (lines 74-139); [exchange] is the user's
    choice in the exchange selectbox. *)
Definition analysis (final_symbol exchange : string) : script unit :=
  df ← lift (load_data yf_download final_symbol "1y");
  df ← lift (indicators df);
  _ ← emit (Subheader "Stock Price Chart");
  chart ← lift (price_chart final_symbol df);
  _ ← emit chart;
  _ ← emit (Subheader "TradingView Chart");
  let symbol_tv := exchange +:+ ":" +:+ final_symbol in
  _ ← emit (TradingView symbol_tv ("tradingview_" +:+ final_symbol));
  _ ← emit (Subheader "Trading Decision");
  r ← lift (make_decision (to_cells df));
  decision_box r.

(** Lines 72-143: [if final_symbol: try: ... except Exception as e:
    st.error(...) else: st.info(...)]. *)
Definition main (final_symbol : option string) (exchange : string)
  : list widget :=
  match final_symbol with
  | Some symbol =>
      if bool_decide (symbol = "")
      then [Info "Please select or enter a stock symbol to continue."]
      else
        match analysis symbol exchange [] with
        | (page, Ok _) => page
        | (page, Raise e) =>
            (page ++ [Error ("Error loading data: " +:+ str_exn e)])%list
        end
  | None => [Info "Please select or enter a stock symbol to continue."]
  end.
End run.

(** *** Choosing the symbol (lines 24-30) *)

Section symbol.
(** [str.strip] and [str.upper], Python's own. *)
Variables strip upper : string → string.

(** [selected_option] is the dropdown's value (["" ] when left at its
    first entry), [custom_symbol] the text typed. *)
Definition final_symbol (selected_option custom_symbol : string)
  : option string :=
  if bool_decide (strip custom_symbol ≠ "")
  then Some (upper (strip custom_symbol))
  else if bool_decide (selected_option ≠ "")
  then Some selected_option
  else None.
End symbol.

End App.
Import App.

(** ** Vocabulary of the statements *)

(** The final row of [data] holds these five cells in the required
    columns. *)
Definition latest_is (data : DataFrame cell)
           (sma_50 sma_200 volatility close support : cell) : Prop :=
  ∃ row, iloc_last data = Ok row
         ∧ row !! "SMA_50" = Some sma_50
         ∧ row !! "SMA_200" = Some sma_200
         ∧ row !! "Volatility" = Some volatility
         ∧ row !! "Close" = Some close
         ∧ row !! "Support" = Some support.

(** The cell is defined (not null) and [float()] reads it as [v]. *)
Definition defined_as (c : cell) (v : float) : Prop :=
  isnull c = false ∧ float_ c = Ok v.

(** The table carries the five required columns, aligned with its index. *)
Definition has_required_columns (data : DataFrame cell) : Prop :=
  Forall (λ name, ∃ col, columns data !! name = Some col
                         ∧ length col = len data) required.

(** An [n]-row table whose final row holds the given cells in the
    required columns; every earlier row holds [filler] in all of them. *)
Definition table (n : nat) (filler : cell)
           (sma_50 sma_200 volatility close support : cell)
  : DataFrame cell :=
  let col c := (replicate (n - 1) filler ++ [c])%list in
  mkDataFrame (Z.of_nat <$> seq 0 n)
    (<["SMA_50" := col sma_50]>
       (<["SMA_200" := col sma_200]>
          (<["Volatility" := col volatility]>
             (<["Close" := col close]>
                (<["Support" := col support]> ∅))))).

(** Column [xs] has the value [x] at row [t]; it is defined at row [t]. *)
Definition value_at {num} (xs : list (option num)) (t : nat) (x : num) : Prop :=
  xs !! t = Some (Some x).

Definition defined_at {num} (xs : list (option num)) (t : nat) : Prop :=
  ∃ x, value_at xs t x.

(** The value a finite float stands for, as an exact rational. *)
Definition exact (f : float) : option Q :=
  match Prim2SF f with
  | S754_zero _ => Some 0%Q
  | S754_finite s m e =>
      let magnitude :=
        if (0 <=? e)%Z then inject_Z (Z.pos m * 2 ^ e)
        else (Z.pos m # Z.to_pos (2 ^ (- e)))%Q in
      Some (if s then Qopp magnitude else magnitude)
  | _ => None
  end.

(** The per-bar fields a price history arrives with. *)
Definition bar_fields : list string :=
  ["Open"; "High"; "Low"; "Close"; "Volume"].

(** Every column of the frame has one entry per row. *)
Definition aligned {C} (df : DataFrame C) : Prop :=
  ∀ name col, columns df !! name = Some col → length col = len df.

(** A float64 price history of [n] bars: Close (and Open) rise by 1
    from [base], High and Low are Close + 1 and Close - 1, Volume is
    constant. *)
Definition ramp (base n : nat) : list (option float) :=
  (λ i : nat, Some (nof_nat (base + i))) <$> seq 0 n.

Definition ramp_history (base n : nat) : DataFrame (option float) :=
  mkDataFrame (Z.of_nat <$> seq 0 n)
    (<["Open" := ramp base n]>
       (<["High" := ramp (base + 1) n]>
          (<["Low" := ramp (base - 1) n]>
             (<["Close" := ramp base n]>
                (<["Volume" := replicate n (Some (nof_nat 5000))]> ∅))))).

(** 60 bars from 100, and 70 bars from 90: the last 60 bars agree. *)
Definition example_column (base : nat) : list (option float) := ramp base 60.
Definition example_history : DataFrame (option float) := ramp_history 100 60.
Definition longer_history : DataFrame (option float) := ramp_history 90 70.

Definition example_enriched : DataFrame (option float) :=
  match indicators example_history with
  | Ok df => df
  | Raise _ => example_history
  end.

Definition longer_enriched : DataFrame (option float) :=
  match indicators longer_history with
  | Ok df => df
  | Raise _ => longer_history
  end.

(** 210 bars from 100: long enough for SMA_200. *)
Definition long_history : DataFrame (option float) := ramp_history 100 210.

Definition long_enriched : DataFrame (option float) :=
  match indicators long_history with
  | Ok df => df
  | Raise _ => long_history
  end.

(** [str.strip] and [str.upper] on ASCII text: whitespace is 9-13,
    28-31 and 32; the letters a-z go to A-Z. *)
Definition ascii_space (c : Ascii.ascii) : bool :=
  let n := Ascii.nat_of_ascii c in
  ((9 <=? n) && (n <=? 13) || (28 <=? n) && (n <=? 32))%nat.

Fixpoint dropwhile_space (l : list Ascii.ascii) : list Ascii.ascii :=
  match l with
  | c :: l' => if ascii_space c then dropwhile_space l' else l
  | [] => []
  end.

Definition ascii_strip (s : string) : string :=
  let lstrip := dropwhile_space in
  String.string_of_list_ascii
    (reverse (lstrip (reverse (lstrip (String.list_ascii_of_string s))))).

Definition ascii_upper (s : string) : string :=
  String.string_of_list_ascii
    ((λ c, let n := Ascii.nat_of_ascii c in
           if ((97 <=? n) && (n <=? 122))%nat
           then Ascii.ascii_of_nat (n - 32)
           else c) <$> String.list_ascii_of_string s).

(** Scenario B of the specification: 250 bars, final row
    SMA_50=110, SMA_200=100, Volatility=0.01, Close=105, Support=100. *)
Definition scenario_B : DataFrame cell :=
  table 250 CNull (CFloat 110) (CFloat 100) (CFloat 0.01) (CFloat 105)
        (CFloat 100).

(** ** The decision rule *)

Section decision.
Implicit Types (data : DataFrame cell) (c : cell) (v : float).

Lemma make_decision_short data :
  (len data < 200)%nat → make_decision data = Ok HOLD.
Proof.
  intros Hlen. unfold make_decision.
  by rewrite bool_decide_eq_true_2.
Qed.

(** With 200 bars or more the result is a function of the five cells
    of the final row. *)
Lemma make_decision_latest data c50 c200 cvol ccl csup :
  (200 ≤ len data)%nat →
  latest_is data c50 c200 cvol ccl csup →
  make_decision data =
    if isnull_any [c50; c200; cvol; ccl; csup] then Ok HOLD else
    match float_ c50, float_ c200, float_ cvol, float_ ccl, float_ csup with
    | Ok sma_50, Ok sma_200, Ok volatility, Ok close, Ok support =>
        if (sma_200 <? sma_50)%float && (volatility <? 0.02)%float
           && (support <? close)%float
        then Ok ("BUY", Some close, Some (close * 1.02)%float,
                 Some (close * 0.98)%float, Some 2%Z)
        else Ok HOLD
    | _, _, _, _, _ => Ok HOLD
    end.
Proof.
  intros Hlen (row & Hrow & H50 & H200 & Hvol & Hcl & Hsup).
  unfold make_decision.
  rewrite bool_decide_eq_false_2 by lia.
  rewrite Hrow. cbn.
  unfold row_getitem. rewrite H50, H200, Hvol, Hcl, Hsup. cbn.
  destruct (isnull c50 || _); [done|].
  destruct (float_ c50); cbn; [|done].
  destruct (float_ c200); cbn; [|done].
  destruct (float_ cvol); cbn; [|done].
  destruct (float_ ccl); cbn; [|done].
  destruct (float_ csup); cbn; done.
Qed.

Lemma has_required_latest data :
  (200 ≤ len data)%nat →
  has_required_columns data →
  ∃ c50 c200 cvol ccl csup, latest_is data c50 c200 cvol ccl csup.
Proof.
  intros Hlen Hreq.
  assert (∀ name, name ∈ required →
            ∃ c, omap last (columns data) !! name = Some c) as Hcell.
  { intros name Hin.
    unfold has_required_columns in Hreq.
    rewrite Forall_forall in Hreq. destruct (Hreq name Hin) as (col & Hcol & Hl).
    rewrite lookup_omap, Hcol. cbn.
    destruct (last col) eqn:Hlast; [eauto|].
    apply last_None in Hlast. subst col. cbn in Hl. lia. }
  destruct (Hcell "SMA_50") as [c50 H50]; [unfold required; repeat constructor|].
  destruct (Hcell "SMA_200") as [c200 H200]; [unfold required; repeat constructor|].
  destruct (Hcell "Volatility") as [cvol Hvol]; [unfold required; repeat constructor|].
  destruct (Hcell "Close") as [ccl Hcl]; [unfold required; repeat constructor|].
  destruct (Hcell "Support") as [csup Hsup]; [unfold required; repeat constructor|].
  exists c50, c200, cvol, ccl, csup, (omap last (columns data)).
  split_and!; try done.
  unfold iloc_last. rewrite bool_decide_eq_false_2; [done|lia].
Qed.

(** The rule reads the table's length and its final row, nothing else. *)
Lemma make_decision_ext data1 data2 :
  iloc_last data1 = iloc_last data2 →
  ((len data1 < 200)%nat ↔ (len data2 < 200)%nat) →
  make_decision data1 = make_decision data2.
Proof.
  intros Hrow Hlen. unfold make_decision.
  rewrite Hrow. rewrite (bool_decide_ext _ _ Hlen). reflexivity.
Qed.

(** Whatever is returned with action ["BUY"] comes from line 68. *)
Lemma make_decision_buy data action entry tp sl rr :
  make_decision data = Ok (action, entry, tp, sl, rr) →
  action = "BUY" →
  ∃ close, entry = Some close ∧ tp = Some (close * 1.02)%float
           ∧ sl = Some (close * 0.98)%float ∧ rr = Some 2%Z.
Proof.
  unfold make_decision, HOLD. intros Hret Haction.
  repeat (case_match; cbn in *; simplify_eq; try done).
  all: unfold mbind, result_bind in *.
  all: repeat (case_match; cbn in *; simplify_eq; try done).
  all: eauto.
Qed.

End decision.

(** C1.  With at least 200 bars and a final row whose SMA_50, SMA_200,
    Volatility, Close and Support are all defined numbers, the rule
    returns BUY exactly when SMA_50 > SMA_200, Volatility < 0.02 and
    Close > Support; the BUY tuple is (Close, Close * 1.02, Close * 0.98, 2)
    and everything else is HOLD with four nulls.  On scenario B (250 bars,
    110 / 100 / 0.01 / 105 / 100) the result is BUY with entry 105,
    take-profit 105 * 1.02 and stop-loss 105 * 0.98, which print as
    105.00, 107.10 and 102.90, and risk-reward 2. *)
Theorem decision_rule_on_defined_row :
  (∀ data c50 c200 cvol ccl csup sma_50 sma_200 volatility close support,
     (200 ≤ len data)%nat →
     latest_is data c50 c200 cvol ccl csup →
     defined_as c50 sma_50 → defined_as c200 sma_200 →
     defined_as cvol volatility → defined_as ccl close →
     defined_as csup support →
     make_decision data =
       Ok (if (sma_200 <? sma_50)%float && (volatility <? 0.02)%float
              && (support <? close)%float
           then ("BUY", Some close, Some (close * 1.02)%float,
                 Some (close * 0.98)%float, Some 2%Z)
           else HOLD))
  ∧ (len scenario_B = 250%nat
     ∧ latest_is scenario_B (CFloat 110) (CFloat 100) (CFloat 0.01)
                 (CFloat 105) (CFloat 100)
     ∧ make_decision scenario_B =
         Ok ("BUY", Some 105%float, Some (105 * 1.02)%float,
             Some (105 * 0.98)%float, Some 2%Z)
     ∧ format_2f 105 = "105.00"
     ∧ format_2f (105 * 1.02) = "107.10"
     ∧ format_2f (105 * 0.98) = "102.90").
Proof.
  split.
  - intros data c50 c200 cvol ccl csup sma_50 sma_200 volatility close support
      Hlen Hrow [N50 F50] [N200 F200] [Nvol Fvol] [Ncl Fcl] [Nsup Fsup].
    rewrite (make_decision_latest _ _ _ _ _ _ Hlen Hrow).
    cbn. rewrite N50, N200, Nvol, Ncl, Nsup, F50, F200, Fvol, Fcl, Fsup. cbn.
    by destruct (_ && _).
  - split; [by vm_compute|]. split.
    + eexists. split_and!; [by vm_compute|by vm_compute..].
    + split_and!; by vm_compute.
Qed.

Lemma decision_rule_on_defined_row_witness :
  make_decision scenario_B =
    Ok (if (100 <? 110)%float && (0.01 <? 0.02)%float && (100 <? 105)%float
        then ("BUY", Some 105%float, Some (105 * 1.02)%float,
              Some (105 * 0.98)%float, Some 2%Z)
        else HOLD).
Proof.
  apply (proj1 decision_rule_on_defined_row scenario_B
           (CFloat 110) (CFloat 100) (CFloat 0.01) (CFloat 105) (CFloat 100)).
  - vm_compute. lia.
  - eexists. split_and!; vm_compute; reflexivity.
  - split; reflexivity.
  - split; reflexivity.
  - split; reflexivity.
  - split; reflexivity.
  - split; reflexivity.
Defined.

(** C2.  A table with fewer than 200 bars yields HOLD with four nulls,
    whatever its rows hold; 199 bars in particular. *)
Theorem short_history_holds (data : DataFrame cell) :
  (len data < 200)%nat →
  make_decision data = Ok ("HOLD", None, None, None, None).
Proof. apply make_decision_short. Qed.

Lemma short_history_holds_witness :
  (len (table 199 (CFloat 1) (CFloat 110) (CFloat 100) (CFloat 0.01)
              (CFloat 105) (CFloat 100)) = 199)%nat
  ∧ make_decision (table 199 (CFloat 1) (CFloat 110) (CFloat 100)
                         (CFloat 0.01) (CFloat 105) (CFloat 100))
    = Ok ("HOLD", None, None, None, None).
Proof.
  split; [reflexivity|].
  apply short_history_holds. vm_compute. lia.
Defined.

(** C3.  With at least 200 bars, if any of SMA_50, SMA_200, Volatility,
    Close or Support is undefined (null) on the final row, the rule
    returns HOLD with four nulls; it returns, it does not raise. *)
Theorem missing_indicator_holds (data : DataFrame cell)
        (c50 c200 cvol ccl csup : cell) :
  (200 ≤ len data)%nat →
  latest_is data c50 c200 cvol ccl csup →
  isnull c50 = true ∨ isnull c200 = true ∨ isnull cvol = true
  ∨ isnull ccl = true ∨ isnull csup = true →
  make_decision data = Ok ("HOLD", None, None, None, None).
Proof.
  intros Hlen Hrow Hnull.
  rewrite (make_decision_latest _ _ _ _ _ _ Hlen Hrow).
  assert (isnull_any [c50; c200; cvol; ccl; csup] = true) as ->; [|done].
  cbn. destruct Hnull as [->|[->|[->|[->| ->]]]];
    rewrite ?orb_true_r; reflexivity.
Qed.

Lemma missing_indicator_holds_witness :
  make_decision (table 200 (CFloat 1) (CFloat 110) (CFloat 100)
                       (CFloat PrimFloat.nan) (CFloat 105) (CFloat 100))
  = Ok ("HOLD", None, None, None, None).
Proof.
  apply (missing_indicator_holds _ (CFloat 110) (CFloat 100)
           (CFloat PrimFloat.nan) (CFloat 105) (CFloat 100)).
  - vm_compute. lia.
  - eexists. split_and!; vm_compute; reflexivity.
  - right. right. left. reflexivity.
Defined.

(** C10.  On every table that carries the five required columns,
    whatever the cells hold (numbers, nulls, objects [float()] rejects),
    the rule returns and the result has one of two shapes:
    ("BUY", entry, take-profit, stop-loss, 2) with all four present, or
    ("HOLD", None, None, None, None). *)
Theorem decision_returns_one_of_two_shapes (data : DataFrame cell) :
  has_required_columns data →
  make_decision data = Ok ("HOLD", None, None, None, None)
  ∨ ∃ entry tp sl,
      make_decision data = Ok ("BUY", Some entry, Some tp, Some sl, Some 2%Z).
Proof.
  intros Hreq.
  destruct (decide (len data < 200)%nat) as [Hshort|Hlong].
  { left. by apply make_decision_short. }
  assert (200 ≤ len data)%nat as Hlen by lia.
  destruct (has_required_latest data Hlen Hreq)
    as (c50 & c200 & cvol & ccl & csup & Hrow).
  rewrite (make_decision_latest _ _ _ _ _ _ Hlen Hrow).
  destruct (isnull_any _); [by left|].
  destruct (float_ c50); [|by left].
  destruct (float_ c200); [|by left].
  destruct (float_ cvol); [|by left].
  destruct (float_ ccl); [|by left].
  destruct (float_ csup); [|by left].
  destruct (_ && _); [right; eauto|by left].
Qed.

(** Outside that schema: on a table of 200 rows that lacks a required
    column, the selection on line 54, which is not inside the [try],
    raises; a shorter one is answered before any column is read. *)
Example missing_column_raises :
  make_decision
    (mkDataFrame [0%Z] (<["SMA_50" := [CFloat 1]]> ∅)) = Ok HOLD
  ∧ make_decision
      (mkDataFrame (Z.of_nat <$> seq 0 200)
         (<["SMA_50" := replicate 200 (CFloat 1)]> ∅))
    = Raise (KeyError "SMA_200").
Proof. split; by vm_compute. Qed.

Lemma decision_returns_one_of_two_shapes_witness :
  make_decision (table 200 (CObj None) (CObj None) CNull (CFloat 0.01)
                       (CObj (Some 105%float)) (CFloat 100))
  = Ok ("HOLD", None, None, None, None)
  ∨ ∃ entry tp sl,
      make_decision (table 200 (CObj None) (CObj None) CNull (CFloat 0.01)
                           (CObj (Some 105%float)) (CFloat 100))
      = Ok ("BUY", Some entry, Some tp, Some sl, Some 2%Z).
Proof.
  apply decision_returns_one_of_two_shapes.
  unfold has_required_columns, required.
  repeat constructor; eexists; split; vm_compute; reflexivity.
Defined.







(** ** Loading *)

(** C4.  When the provider returns a history with zero rows for a
    symbol, [load_data] raises (ValueError "No data found for <symbol>.")
    instead of returning the table, and the run shows that error and
    nothing else: no indicator is computed and no decision is made. *)
Theorem empty_history_is_an_error
        (yf_download : string → string → result (DataFrame (option float)))
        (symbol period exchange : string) (df : DataFrame (option float)) :
  yf_download symbol period = Ok df →
  len df = 0%nat →
  load_data yf_download symbol period
  = Raise (ValueError ("No data found for " +:+ symbol +:+ "."))
  ∧ (period = "1y" → symbol ≠ "" →
     main yf_download (Some symbol) exchange
     = [Error ("Error loading data: No data found for " +:+ symbol +:+ ".")]).
Proof.
  intros Hdl Hlen.
  assert (load_data yf_download symbol period
          = Raise (ValueError ("No data found for " +:+ symbol +:+ ".")))
    as Hload.
  { unfold load_data. rewrite Hdl. cbn.
    unfold empty. by rewrite bool_decide_eq_true_2. }
  split; [done|].
  intros -> Hsym. unfold main.
  rewrite bool_decide_eq_false_2 by done.
  unfold analysis, lift. cbn. unfold mbind at 1, script_bind.
  by rewrite Hload.
Qed.

Lemma empty_history_is_an_error_witness :
  load_data (λ _ _, Ok (mkDataFrame [] ∅)) "ZZZZ" "1y"
  = Raise (ValueError "No data found for ZZZZ.")
  ∧ main (λ _ _, Ok (mkDataFrame [] ∅)) (Some "ZZZZ") "NYSE"
    = [Error "Error loading data: No data found for ZZZZ."].
Proof.
  destruct (empty_history_is_an_error
              (λ _ _, Ok (mkDataFrame [] ∅)) "ZZZZ" "1y" "NYSE"
              (mkDataFrame [] ∅) eq_refl eq_refl) as [Hload Hmain].
  split; [exact Hload|].
  apply Hmain; [reflexivity|discriminate].
Defined.

(** ** Rolling windows *)

Section rolling_facts.
Context {num : Type} `{Arith num}.
Implicit Types (xs : list (option num)) (ys : list num).

Lemma observations_fmap_Some ys : observations (Some <$> ys) = ys.
Proof.
  unfold observations. induction ys as [|y ys IH]; [done|].
  cbn. by rewrite IH.
Qed.

Lemma observations_length xs : (length (observations xs) ≤ length xs)%nat.
Proof.
  unfold observations. induction xs as [|[x|] xs IH]; cbn; lia.
Qed.

Lemma observations_full xs :
  length (observations xs) = length xs → xs = Some <$> observations xs.
Proof.
  unfold observations. induction xs as [|[x|] xs IH]; cbn; intros Hlen.
  - done.
  - f_equal. apply IH. lia.
  - pose proof (observations_length xs) as Hle.
    unfold observations in Hle. lia.
Qed.

Lemma observations_all_defined xs :
  (∀ j, (j < length xs)%nat → ∃ x, xs !! j = Some (Some x)) →
  length (observations xs) = length xs.
Proof.
  unfold observations. induction xs as [|o xs IH]; intros Hall; [done|].
  destruct (Hall 0%nat) as [x Hx]; [cbn; lia|].
  cbn in Hx. injection Hx as ->. cbn. f_equal.
  apply IH. intros j Hj. apply (Hall (S j)). cbn. lia.
Qed.

Lemma window_length {A} w t (l : list A) :
  (t < length l)%nat → length (window w t l) = (w `min` S t)%nat.
Proof.
  intros Ht. unfold window. rewrite length_drop, length_take. lia.
Qed.

Lemma window_full {A} w t (l : list A) :
  (w ≤ S t)%nat → window w t l = take w (drop (S t - w) l).
Proof.
  intros Hw. unfold window. rewrite take_drop_commute.
  do 2 f_equal. lia.
Qed.

Lemma rolling_length w agg xs : length (rolling w agg xs) = length xs.
Proof. unfold rolling. apply length_imap. Qed.

Lemma pct_change_length xs : length (pct_change xs) = length xs.
Proof. unfold pct_change. apply length_imap. Qed.

(** A rolling aggregate has a value at row [t] exactly when the [w]
    rows ending at [t] exist and are all present; the value aggregates
    them. *)
Lemma rolling_value w agg xs t v :
  value_at (rolling w agg xs) t v ↔
  (w ≤ S t)%nat ∧ (t < length xs)%nat
  ∧ ∃ obs, Some <$> obs = take w (drop (S t - w) xs)
           ∧ length obs = w ∧ v = agg obs.
Proof.
  unfold value_at, rolling. rewrite list_lookup_imap. split.
  - intros Hv.
    destruct (xs !! t) as [o|] eqn:Hxt; [|done].
    apply lookup_lt_Some in Hxt. cbn in Hv.
    case_bool_decide as Hobs; [|done].
    pose proof (observations_length (window w t xs)) as Hle.
    pose proof (window_length w t xs Hxt) as Hwin.
    assert (w ≤ S t)%nat as Hw by lia.
    split; [done|]. split; [done|].
    exists (observations (window w t xs)).
    split_and!; [|lia|congruence].
    rewrite <- (window_full _ _ _ Hw).
    symmetry. apply observations_full. lia.
  - intros (Hw & Ht & obs & Hobs & Hlen & ->).
    destruct (lookup_lt_is_Some_2 xs t Ht) as [o ->]. cbn.
    rewrite (window_full _ _ _ Hw), <- Hobs, observations_fmap_Some.
    by rewrite bool_decide_eq_true_2 by lia.
Qed.

(** A stretch of [w] rows from row [k] is fully present exactly when
    each of its rows is. *)
Lemma slice_defined w k xs :
  (∃ obs, Some <$> obs = take w (drop k xs) ∧ length obs = w) ↔
  ∀ j, (j < w)%nat → defined_at xs (k + j).
Proof.
  split.
  - intros (obs & Hobs & Hlen) j Hj.
    destruct (lookup_lt_is_Some_2 obs j) as [x Hx]; [lia|].
    exists x. unfold value_at.
    rewrite <- lookup_drop, <- (lookup_take_lt _ w) by done.
    by rewrite <- Hobs, list_lookup_fmap, Hx.
  - intros Hdef.
    assert (length (take w (drop k xs)) = w) as Hlen.
    { rewrite length_take, length_drop.
      destruct w as [|w]; [lia|].
      destruct (Hdef w) as [x Hx]; [lia|].
      apply lookup_lt_Some in Hx. lia. }
    exists (observations (take w (drop k xs))).
    assert (length (observations (take w (drop k xs))) = w) as Hfull.
    { rewrite <- Hlen at 2. apply observations_all_defined.
      intros j Hj. rewrite Hlen in Hj.
      destruct (Hdef j Hj) as [x Hx]. exists x.
      by rewrite lookup_take_lt, lookup_drop. }
    split; [|done].
    symmetry. apply observations_full. congruence.
Qed.

Lemma rolling_defined w agg xs t :
  (0 < w)%nat →
  defined_at (rolling w agg xs) t ↔
  (w ≤ S t)%nat ∧ ∀ i, (S t - w ≤ i ≤ t)%nat → defined_at xs i.
Proof.
  intros Hpos. unfold defined_at at 1. split.
  - intros (v & Hv). apply rolling_value in Hv as (Hw & Ht & obs & Hobs & Hlen & _).
    split; [done|]. intros i Hi.
    assert (∃ obs, Some <$> obs = take w (drop (S t - w) xs)
                   ∧ length obs = w) as Hslice by eauto.
    rewrite slice_defined in Hslice.
    replace i with (S t - w + (i - (S t - w)))%nat by lia.
    apply Hslice. lia.
  - intros (Hw & Hdef).
    assert (∃ obs, Some <$> obs = take w (drop (S t - w) xs)
                   ∧ length obs = w) as (obs & Hobs & Hlen).
    { apply slice_defined. intros j Hj. apply Hdef. lia. }
    exists (agg obs). apply rolling_value.
    split; [done|]. split; [|eauto].
    destruct (Hdef t) as [x Hx]; [lia|]. by apply lookup_lt_Some in Hx.
Qed.

(** [pct_change]: row [t] has a value exactly when [t > 0] and rows
    [t] and [t-1] of the column have one; it is their ratio minus 1. *)
Lemma pct_change_value xs t r :
  value_at (pct_change xs) t r ↔
  ∃ p c prev, t = S p ∧ value_at xs t c ∧ value_at xs p prev
              ∧ r = nsub (ndiv c prev) (nof_nat 1).
Proof.
  unfold value_at, pct_change. rewrite list_lookup_imap. split.
  - intros Hv. destruct t as [|p].
    { by destruct (xs !! 0%nat). }
    destruct (xs !! S p) as [[c|]|] eqn:Hxt;
      destruct (xs !! p) as [[prev|]|] eqn:Hxp; try done.
    exists p, c, prev. split_and!; try done.
    cbn in Hv. congruence.
  - intros (p & c & prev & -> & Hc & Hp & ->).
    rewrite Hc. cbn. by rewrite Hp.
Qed.

End rolling_facts.

(** ** The indicator pipeline *)

Section pipeline_facts.
Context {num : Type} `{Arith num}.
Implicit Types (df : DataFrame (option num)).

(** The pipeline succeeds exactly on frames with Close, High and Low
    columns, and then adds six columns to the frame's own. *)
Lemma indicators_columns df df' :
  indicators df = Ok df' ↔
  ∃ close high low,
    columns df !! "Close" = Some close
    ∧ columns df !! "High" = Some high
    ∧ columns df !! "Low" = Some low
    ∧ df' = mkDataFrame (index df)
              (<["Support" := rolling 30 minimum low]>
               (<["Resistance" := rolling 30 maximum high]>
                (<["Volatility" := rolling 30 (std 1) (pct_change close)]>
                 (<["Daily Return" := pct_change close]>
                  (<["SMA_200" := rolling 200 mean close]>
                   (<["SMA_50" := rolling 50 mean close]> (columns df))))))).
Proof.
  unfold indicators, key_levels, getitem, setitem. cbn.
  split.
  - destruct (columns df !! "Close") as [close|] eqn:Hclose; cbn; [|done].
    repeat (first [ rewrite lookup_insert_eq
                  | rewrite lookup_insert_ne by done
                  | rewrite Hclose ]; cbn).
    destruct (columns df !! "High") as [high|] eqn:Hhigh; cbn; [|done].
    repeat (rewrite lookup_insert_ne by done; cbn).
    destruct (columns df !! "Low") as [low|] eqn:Hlow; cbn; [|done].
    intros [= <-]. by exists close, high, low.
  - intros (close & high & low & Hclose & Hhigh & Hlow & ->).
    rewrite Hclose. cbn.
    repeat (first [ rewrite lookup_insert_eq
                  | rewrite lookup_insert_ne by done
                  | rewrite Hclose | rewrite Hhigh | rewrite Hlow ]; cbn).
    done.
Qed.

End pipeline_facts.

Section pipeline_claims.
Context {num : Type} `{Arith num}.
Implicit Types (df : DataFrame (option num)).

(** C5.  On a price history (a frame with Close, High and Low columns)
    the pipeline returns a frame with the same index, hence the same
    number of rows, in which Open, High, Low, Close and Volume are the
    columns they were; and if every column had one entry per row, so
    does every column of the result, the six new ones included. *)
Theorem enrichment_preserves_bars df close high low :
  columns df !! "Close" = Some close →
  columns df !! "High" = Some high →
  columns df !! "Low" = Some low →
  ∃ df', indicators df = Ok df'
         ∧ len df' = len df
         ∧ index df' = index df
         ∧ (∀ name, name ∈ bar_fields →
                    columns df' !! name = columns df !! name)
         ∧ (aligned df → aligned df').
Proof.
  intros Hclose Hhigh Hlow.
  eexists. split.
  { apply indicators_columns. exists close, high, low. eauto. }
  split; [done|]. split; [done|]. split.
  - intros name Hin. cbn.
    unfold bar_fields in Hin.
    rewrite !lookup_insert_ne; [done|..];
      intros <-;
      repeat (apply elem_of_cons in Hin as [Hin|Hin]; [discriminate|]);
      by apply elem_of_nil in Hin.
  - intros Hal name col. cbn. unfold len. cbn.
    pose proof (Hal _ _ Hclose) as Lclose.
    pose proof (Hal _ _ Hhigh) as Lhigh.
    pose proof (Hal _ _ Hlow) as Llow.
    unfold len in *.
    rewrite !lookup_insert_Some.
    intros Hcol.
    repeat (destruct Hcol as [[_ <-]|[_ Hcol]];
            [by rewrite ?rolling_length, ?pct_change_length|]).
    by apply (Hal name).
Qed.



End pipeline_claims.

(** The example history, run through the pipeline. *)

Lemma example_column_defined base t :
  (t < length (example_column base))%nat → defined_at (example_column base) t.
Proof.
  unfold example_column, ramp, defined_at, value_at.
  rewrite length_fmap, length_seq. intros Ht.
  rewrite list_lookup_fmap, lookup_seq_lt by done. by eexists.
Qed.

Lemma example_enriched_ok : indicators example_history = Ok example_enriched.
Proof. by vm_compute. Qed.

Example sma_50_of_example :
  columns example_enriched !! "SMA_50" ≫= (λ col, col !! 48%nat) = Some None
  ∧ columns example_enriched !! "SMA_50" ≫= (λ col, col !! 49%nat)
    = Some (Some 124.5%float)
  ∧ columns example_enriched !! "SMA_200" ≫= (λ col, col !! 59%nat) = Some None
  ∧ columns example_enriched !! "Support" ≫= (λ col, col !! 29%nat)
    = Some (Some 99%float)
  ∧ columns example_enriched !! "Resistance" ≫= (λ col, col !! 29%nat)
    = Some (Some 130%float)
  ∧ columns example_enriched !! "Daily Return" ≫= (λ col, col !! 1%nat)
    = Some (Some (101 / 100 - 1)%float).
Proof. split_and!; by vm_compute. Qed.

(** Sample, not population, standard deviation: over the window 1, 3
    the deviations are 1 and 1, and the result is sqrt 2, not 1. *)
Example std_divides_by_n_minus_1 :
  rolling 2 (std 1) [Some 1%float; Some 3%float]
  = [None; Some (PrimFloat.sqrt 2)].
Proof. by vm_compute. Qed.

Lemma enrichment_preserves_bars_witness :
  ∃ df', indicators example_history = Ok df'
         ∧ len df' = len example_history
         ∧ index df' = index example_history
         ∧ (∀ name, name ∈ bar_fields →
                    columns df' !! name = columns example_history !! name)
         ∧ (aligned example_history → aligned df').
Proof.
  apply (enrichment_preserves_bars example_history
           (example_column 100) (example_column 101) (example_column 99));
    reflexivity.
Defined.



(** ** The rule on the pipeline's own output *)

(** Before row [w - 1] a rolling aggregate is missing. *)
Lemma rolling_early {num} `{Arith num} w agg (xs : list (option num)) t :
  (t < length xs)%nat → (S t < w)%nat → rolling w agg xs !! t = Some None.
Proof.
  intros Ht Hw. unfold rolling. rewrite list_lookup_imap.
  destruct (lookup_lt_is_Some_2 xs t Ht) as [o ->]. cbn.
  pose proof (observations_length (window w t xs)) as Hle.
  rewrite (window_length w t xs Ht) in Hle.
  by rewrite bool_decide_eq_false_2 by lia.
Qed.

Lemma to_cells_lookup (df : DataFrame (option float)) name :
  columns (to_cells df) !! name
  = (λ col : list (option float), to_cell <$> col) <$> columns df !! name.
Proof. unfold to_cells. cbn. apply lookup_fmap. Qed.

(** The enriched frame carries the five columns the rule requires. *)
Lemma enriched_has_required (df e : DataFrame (option float)) :
  indicators df = Ok e → aligned df → has_required_columns (to_cells e).
Proof.
  intros (close & high & low & Hclose & Hhigh & Hlow & ->)%indicators_columns
         Hal.
  pose proof (Hal _ _ Hclose) as Lclose.
  pose proof (Hal _ _ Hlow) as Llow.
  unfold has_required_columns, required, len in *.
  repeat apply Forall_cons_2; [..|apply Forall_nil_2];
    rewrite to_cells_lookup; cbn;
    rewrite ?lookup_insert_ne by done;
    rewrite ?lookup_insert_eq, ?Hclose; cbn;
    eexists; (split; [reflexivity|]);
    by rewrite length_fmap, ?rolling_length, ?pct_change_length.
Qed.

(** With fewer than 200 bars the final row's SMA_200 is NaN. *)
Lemma enriched_short_sma_200 (df e : DataFrame (option float)) row :
  indicators df = Ok e → aligned df → (len e < 200)%nat →
  iloc_last (to_cells e) = Ok row →
  row !! "SMA_200" = Some (CFloat PrimFloat.nan).
Proof.
  intros (close & high & low & Hclose & Hhigh & Hlow & ->)%indicators_columns
         Hal Hlen Hrow.
  pose proof (Hal _ _ Hclose) as Lclose.
  unfold iloc_last, len in *. cbn in *.
  case_bool_decide as Hempty; [done|]. injection Hrow as <-.
  rewrite lookup_omap, lookup_fmap.
  rewrite !lookup_insert_ne by done. rewrite lookup_insert_eq. cbn.
  rewrite last_lookup, length_fmap, rolling_length, list_lookup_fmap.
  rewrite rolling_early by lia. reflexivity.
Qed.

(** A null SMA_200 on the final row means HOLD, whatever the length. *)
Lemma null_sma_200_holds (data : DataFrame cell) row c :
  has_required_columns data →
  iloc_last data = Ok row → row !! "SMA_200" = Some c → isnull c = true →
  make_decision data = Ok HOLD.
Proof.
  intros Hreq Hrow Hc Hnull.
  destruct (decide (len data < 200)%nat) as [Hshort|Hlong].
  { by apply make_decision_short. }
  assert (200 ≤ len data)%nat as Hlen by lia.
  destruct (has_required_latest data Hlen Hreq)
    as (c50 & c200 & cvol & ccl & csup & Hlatest).
  rewrite (make_decision_latest _ _ _ _ _ _ Hlen Hlatest).
  destruct Hlatest as (row' & Hrow' & _ & H200 & _).
  assert (c200 = c) as -> by congruence.
  cbn. rewrite Hnull. by rewrite orb_true_r.
Qed.


Lemma ramp_history_aligned base n : aligned (ramp_history base n).
Proof.
  intros name col. unfold ramp_history, ramp, len. cbn.
  rewrite !lookup_insert_Some, lookup_empty.
  rewrite length_fmap, length_seq.
  intros [[_ <-]|[_ [[_ <-]|[_ [[_ <-]|[_ [[_ <-]|[_ [[_ <-]|[_ ?]]]]]]]]]];
    rewrite ?length_fmap, ?length_seq, ?length_replicate; done.
Qed.

Lemma longer_enriched_ok : indicators longer_history = Ok longer_enriched.
Proof. by vm_compute. Qed.


(** ** binary64 comparisons *)

Lemma SFcompare_refl (f : spec_float) :
  f ≠ S754_nan → SFcompare f f = Some Eq.
Proof.
  destruct f as [s|s| |s m e]; intros Hnan; try done; cbn.
  - by destruct s.
  - rewrite Z.compare_refl.
    change (Pos.compare_cont Eq m m) with (Pos.compare m m).
    rewrite Pos.compare_refl. by destruct s.
Qed.

(** [x < x] is false for every float, NaN included. *)
Lemma ltb_irrefl (x : float) : (x <? x)%float = false.
Proof.
  rewrite ltb_spec. unfold SFltb.
  destruct (Prim2SF x) as [s|s| |s m e] eqn:Hx; [| |done|];
    by rewrite SFcompare_refl.
Qed.

(** A comparison that holds has no NaN on either side. *)
Lemma ltb_true_not_nan (x y : float) :
  (x <? y)%float = true →
  PrimFloat.is_nan x = false ∧ PrimFloat.is_nan y = false.
Proof.
  rewrite ltb_spec. unfold PrimFloat.is_nan, SFltb.
  rewrite !FloatAxioms.eqb_spec.
  unfold SFeqb. intros Hlt.
  assert (Prim2SF x ≠ S754_nan ∧ Prim2SF y ≠ S754_nan) as [Hx Hy].
  { destruct (Prim2SF x), (Prim2SF y); done. }
  by rewrite !SFcompare_refl.
Qed.

(** ** More on the decision rule *)

(** X2.  BUY is returned only on a strict signal: the table has at least
    200 bars, none of the five required cells of the final row is null,
    [float()] accepts each of them, and on the converted values
    SMA_50 > SMA_200, Volatility < 0.02 and Close > Support all hold;
    the entry price is that Close.  None of SMA_50, SMA_200, Volatility,
    Close, Support is then NaN, also when a cell is an object (such as
    the string "nan") that [pd.isnull] lets through. *)
Theorem buy_only_on_strict_signal (data : DataFrame cell)
        (entry tp sl : option float) (rr : option Z) :
  make_decision data = Ok ("BUY", entry, tp, sl, rr) →
  (200 ≤ len data)%nat
  ∧ ∃ c50 c200 cvol ccl csup sma_50 sma_200 volatility close support,
      latest_is data c50 c200 cvol ccl csup
      ∧ defined_as c50 sma_50 ∧ defined_as c200 sma_200
      ∧ defined_as cvol volatility ∧ defined_as ccl close
      ∧ defined_as csup support
      ∧ (sma_200 <? sma_50)%float = true
      ∧ (volatility <? 0.02)%float = true
      ∧ (support <? close)%float = true
      ∧ entry = Some close
      ∧ PrimFloat.is_nan sma_50 = false ∧ PrimFloat.is_nan sma_200 = false
      ∧ PrimFloat.is_nan volatility = false
      ∧ PrimFloat.is_nan close = false ∧ PrimFloat.is_nan support = false.
Proof.
  intros Hret.
  destruct (decide (len data < 200)%nat) as [Hshort|Hlong].
  { by rewrite (make_decision_short _ Hshort) in Hret. }
  split; [lia|].
  unfold make_decision in Hret.
  rewrite bool_decide_eq_false_2 in Hret by done.
  destruct (iloc_last data) as [row|] eqn:Hrow; [|done].
  cbn in Hret. unfold row_getitem in Hret.
  destruct (row !! "SMA_50") as [c50|] eqn:H50; [|done].
  destruct (row !! "SMA_200") as [c200|] eqn:H200; [|done].
  destruct (row !! "Volatility") as [cvol|] eqn:Hvol; [|done].
  destruct (row !! "Close") as [ccl|] eqn:Hcl; [|done].
  destruct (row !! "Support") as [csup|] eqn:Hsup; [|done].
  cbn in Hret.
  destruct (isnull c50) eqn:N50; [done|].
  destruct (isnull c200) eqn:N200; [done|].
  destruct (isnull cvol) eqn:Nvol; [done|].
  destruct (isnull ccl) eqn:Ncl; [done|].
  destruct (isnull csup) eqn:Nsup; [done|].
  cbn in Hret.
  destruct (float_ c50) as [sma_50|] eqn:F50; [|done].
  destruct (float_ c200) as [sma_200|] eqn:F200; [|done].
  destruct (float_ cvol) as [volatility|] eqn:Fvol; [|done].
  destruct (float_ ccl) as [close|] eqn:Fcl; [|done].
  destruct (float_ csup) as [support|] eqn:Fsup; [|done].
  cbn in Hret.
  destruct (sma_200 <? sma_50)%float eqn:L1; [|done].
  destruct (volatility <? 0.02)%float eqn:L2; [|done].
  destruct (support <? close)%float eqn:L3; [|done].
  cbn in Hret. injection Hret as <- _ _ _.
  destruct (ltb_true_not_nan _ _ L1) as [? ?].
  destruct (ltb_true_not_nan _ _ L2) as [? _].
  destruct (ltb_true_not_nan _ _ L3) as [? ?].
  exists c50, c200, cvol, ccl, csup, sma_50, sma_200, volatility, close, support.
  split_and!; try done.
  by exists row.
Qed.

Lemma buy_only_on_strict_signal_witness :
  (200 ≤ len scenario_B)%nat
  ∧ ∃ c50 c200 cvol ccl csup sma_50 sma_200 volatility close support,
      latest_is scenario_B c50 c200 cvol ccl csup
      ∧ defined_as c50 sma_50 ∧ defined_as c200 sma_200
      ∧ defined_as cvol volatility ∧ defined_as ccl close
      ∧ defined_as csup support
      ∧ (sma_200 <? sma_50)%float = true
      ∧ (volatility <? 0.02)%float = true
      ∧ (support <? close)%float = true
      ∧ Some 105%float = Some close
      ∧ PrimFloat.is_nan sma_50 = false ∧ PrimFloat.is_nan sma_200 = false
      ∧ PrimFloat.is_nan volatility = false
      ∧ PrimFloat.is_nan close = false ∧ PrimFloat.is_nan support = false.
Proof.
  apply (buy_only_on_strict_signal scenario_B (Some 105%float)
           (Some (105 * 1.02)%float) (Some (105 * 0.98)%float) (Some 2%Z)).
  vm_compute. reflexivity.
Defined.

(** X3.  The three comparisons are strict: with at least 200 bars and
    five defined numbers on the final row, a tie in any one of them
    (SMA_50 equal to SMA_200, Volatility equal to the threshold 0.02,
    or Close equal to Support) gives HOLD. *)
Theorem ties_are_hold (data : DataFrame cell) (c50 c200 cvol ccl csup : cell)
        (sma_50 sma_200 volatility close support : float) :
  (200 ≤ len data)%nat →
  latest_is data c50 c200 cvol ccl csup →
  defined_as c50 sma_50 → defined_as c200 sma_200 →
  defined_as cvol volatility → defined_as ccl close →
  defined_as csup support →
  sma_50 = sma_200 ∨ volatility = 0.02%float ∨ close = support →
  make_decision data = Ok ("HOLD", None, None, None, None).
Proof.
  intros Hlen Hrow [N50 F50] [N200 F200] [Nvol Fvol] [Ncl Fcl] [Nsup Fsup]
         Htie.
  rewrite (make_decision_latest _ _ _ _ _ _ Hlen Hrow).
  cbn. rewrite N50, N200, Nvol, Ncl, Nsup, F50, F200, Fvol, Fcl, Fsup. cbn.
  destruct Htie as [->|[->| ->]].
  - by rewrite ltb_irrefl.
  - rewrite (ltb_irrefl 0.02). by rewrite andb_false_r.
  - rewrite ltb_irrefl. by rewrite andb_false_r.
Qed.

Lemma ties_are_hold_witness :
  make_decision (table 250 CNull (CFloat 110) (CFloat 100) (CFloat 0.02)
                       (CFloat 105) (CFloat 100))
  = Ok ("HOLD", None, None, None, None).
Proof.
  apply (ties_are_hold _ (CFloat 110) (CFloat 100) (CFloat 0.02)
           (CFloat 105) (CFloat 100) 110 100 0.02 105 100).
  - vm_compute. lia.
  - eexists. split_and!; vm_compute; reflexivity.
  - split; reflexivity.
  - split; reflexivity.
  - split; reflexivity.
  - split; reflexivity.
  - split; reflexivity.
  - right. left. reflexivity.
Defined.

(** X4.  The rule reads five cells and the length, nothing else: two
    tables of at least 200 bars whose final rows hold the same cells in
    SMA_50, SMA_200, Volatility, Close and Support get the same answer,
    whatever their other columns and earlier rows hold. *)
Theorem decision_reads_five_cells (data1 data2 : DataFrame cell)
        (c50 c200 cvol ccl csup : cell) :
  (200 ≤ len data1)%nat → (200 ≤ len data2)%nat →
  latest_is data1 c50 c200 cvol ccl csup →
  latest_is data2 c50 c200 cvol ccl csup →
  make_decision data1 = make_decision data2.
Proof.
  intros Hlen1 Hlen2 Hrow1 Hrow2.
  rewrite (make_decision_latest _ _ _ _ _ _ Hlen1 Hrow1).
  by rewrite (make_decision_latest _ _ _ _ _ _ Hlen2 Hrow2).
Qed.

Lemma decision_reads_five_cells_witness :
  make_decision scenario_B
  = make_decision
      (setitem "Resistance" (replicate 200 (CFloat 120))
         (table 200 (CFloat 1) (CFloat 110) (CFloat 100) (CFloat 0.01)
                (CFloat 105) (CFloat 100))).
Proof.
  apply (decision_reads_five_cells _ _ (CFloat 110) (CFloat 100)
           (CFloat 0.01) (CFloat 105) (CFloat 100)).
  - vm_compute. lia.
  - vm_compute. lia.
  - eexists. split_and!; vm_compute; reflexivity.
  - eexists. split_and!; vm_compute; reflexivity.
Defined.

(** ** More on loading and enriching *)


Section more_pipeline.
Context {num : Type} `{Arith num}.
Implicit Types (df : DataFrame (option num)).


(** The maximum (minimum) of a non-empty list is one of its elements,
    when [nmax] ([nmin]) returns one of its arguments. *)
Lemma foldl_selective (op : num → num → num) (x : num) (xs : list num) :
  (∀ a b, op a b = a ∨ op a b = b) → foldl op x xs ∈ x :: xs.
Proof.
  intros Hsel. revert x. induction xs as [|y ys IH]; intros x; cbn.
  - apply list_elem_of_here.
  - destruct (Hsel x y) as [->| ->].
    + specialize (IH x). apply elem_of_cons in IH as [->|Hin].
      * apply list_elem_of_here.
      * by do 2 apply list_elem_of_further.
    + apply list_elem_of_further, IH.
Qed.

(** A value of a rolling extreme at row [t] is the value of one of the
    rows of its window. *)
Lemma rolling_selective w (agg : list num → num) (xs : list (option num)) t v :
  (0 < w)%nat →
  (∀ obs, obs ≠ [] → agg obs ∈ obs) →
  value_at (rolling w agg xs) t v →
  ∃ i, (S t - w ≤ i ≤ t)%nat ∧ value_at xs i v.
Proof.
  intros Hpos Hagg (Hw & Ht & obs & Hobs & Hlen & ->)%rolling_value.
  assert (obs ≠ []) as Hne by (intros ->; cbn in Hlen; lia).
  apply Hagg, list_elem_of_lookup in Hne as [j Hj].
  pose proof (lookup_lt_Some _ _ _ Hj) as Hjw.
  exists (S t - w + j)%nat. split; [lia|].
  unfold value_at. rewrite <- lookup_drop, <- (lookup_take_lt _ w) by lia.
  by rewrite <- Hobs, list_lookup_fmap, Hj.
Qed.


(** X8.  The pipeline fails exactly when Close, High or Low is missing,
    with the KeyError of the first one missing in that order (High and
    Low are looked up only after the four Close-based columns were
    assigned). *)
Theorem indicators_fail_on_the_first_missing_column df e :
  indicators df = Raise e ↔
  (columns df !! "Close" = None ∧ e = KeyError "Close")
  ∨ (is_Some (columns df !! "Close") ∧ columns df !! "High" = None
     ∧ e = KeyError "High")
  ∨ (is_Some (columns df !! "Close") ∧ is_Some (columns df !! "High")
     ∧ columns df !! "Low" = None ∧ e = KeyError "Low").
Proof.
  unfold indicators, key_levels, getitem, setitem. cbn.
  destruct (columns df !! "Close") as [close|] eqn:Hclose; cbn.
  2: { split; [intros [= <-]; by left|].
       intros [[_ ->]|[[[? ?] _]|[[? ?] _]]]; done. }
  repeat (first [ rewrite lookup_insert_eq
                | rewrite lookup_insert_ne by done
                | rewrite Hclose ]; cbn).
  destruct (columns df !! "High") as [high|] eqn:Hhigh; cbn.
  2: { split; [intros [= <-]; right; left; by eauto|].
       intros [[? _]|[(_ & _ & ->)|(_ & [? ?] & _)]]; done. }
  repeat (rewrite lookup_insert_ne by done; cbn).
  destruct (columns df !! "Low") as [low|] eqn:Hlow; cbn.
  2: { split; [intros [= <-]; right; right; by eauto|].
       intros [[? _]|[(_ & ? & _)|(_ & _ & _ & ->)]]; done. }
  split; [done|].
  intros [[? _]|[(_ & ? & _)|(_ & _ & ? & _)]]; done.
Qed.

(** X9.  Running the pipeline again on its own output changes nothing:
    the six derived columns are recomputed from Close, High and Low,
    which the first run left as they were. *)
Theorem indicators_idempotent df df' :
  indicators df = Ok df' → indicators df' = Ok df'.
Proof.
  intros (close & high & low & Hclose & Hhigh & Hlow & ->)%indicators_columns.
  apply indicators_columns. exists close, high, low. cbn.
  split_and!; try (by rewrite !lookup_insert_ne by done).
  f_equal. apply map_eq. intros name.
  rewrite !lookup_insert. repeat case_decide; done.
Qed.

End more_pipeline.

Lemma ramp_defined base n t :
  (t < length (ramp base n))%nat → defined_at (ramp base n) t.
Proof.
  unfold ramp, defined_at, value_at.
  rewrite length_fmap, length_seq. intros Ht.
  rewrite list_lookup_fmap, lookup_seq_lt by done. by eexists.
Qed.

Lemma long_enriched_ok : indicators long_history = Ok long_enriched.
Proof. by vm_compute. Qed.


Lemma float_max_selective (a b : float) : nmax a b = a ∨ nmax a b = b.
Proof. cbn. destruct (a <? b)%float; auto. Qed.

Lemma float_min_selective (a b : float) : nmin a b = a ∨ nmin a b = b.
Proof. cbn. destruct (b <? a)%float; auto. Qed.


Lemma indicators_idempotent_witness :
  indicators example_enriched = Ok example_enriched.
Proof.
  apply (indicators_idempotent example_history). exact example_enriched_ok.
Defined.

(** ** The page of a run *)

Section page.
Variable yf_download : string → string → result (DataFrame (option float)).

(** The script, stage by stage. *)
Lemma analysis_unfold symbol exchange :
  analysis yf_download symbol exchange [] =
  match load_data yf_download symbol "1y" with
  | Raise e => ([], Raise e)
  | Ok df =>
      match indicators df with
      | Raise e => ([], Raise e)
      | Ok enriched =>
          match price_chart symbol enriched with
          | Raise e => ([Subheader "Stock Price Chart"], Raise e)
          | Ok chart =>
              let page :=
                [Subheader "Stock Price Chart"; chart;
                 Subheader "TradingView Chart";
                 TradingView (exchange +:+ ":" +:+ symbol)
                             ("tradingview_" +:+ symbol);
                 Subheader "Trading Decision"] in
              match make_decision (to_cells enriched) with
              | Raise e => (page, Raise e)
              | Ok r => decision_box r page
              end
          end
      end
  end.
Proof.
  unfold analysis, mbind, script_bind, lift, emit. cbn.
  destruct (load_data yf_download symbol "1y") as [df|e]; [|done].
  destruct (indicators df) as [enriched|e]; [|done].
  destruct (price_chart symbol enriched) as [chart|e]; [|done].
  by destruct (make_decision (to_cells enriched)) as [r|e].
Qed.

Lemma decision_box_hold page :
  decision_box HOLD page
  = ((page ++ [Info "Not worth it. HOLD."])%list, Ok ()).
Proof. reflexivity. Qed.

Lemma decision_box_buy page entry tp sl rr :
  ∃ html, decision_box ("BUY", Some entry, Some tp, Some sl, rr) page
          = ((page ++ [Markdown html])%list, Ok ()).
Proof. eexists. reflexivity. Qed.

(** Whatever the decision box does, it only appends to the page. *)
Lemma decision_box_appends r page page' res :
  decision_box r page = (page', res) → ∃ rest, page' = (page ++ rest)%list.
Proof.
  destruct r as [[[[decision entry] tp] sl] rr]. unfold decision_box.
  case_bool_decide.
  - unfold mbind, script_bind, lift, emit.
    destruct (format_field entry); [|intros [= <- _]; exists []; by rewrite app_nil_r].
    destruct (format_field tp); [|intros [= <- _]; exists []; by rewrite app_nil_r].
    destruct (format_field sl); [|intros [= <- _]; exists []; by rewrite app_nil_r].
    intros [= <- _]. by eexists.
  - unfold emit. intros [= <- _]. by eexists.
Qed.

(** The chart finds its five columns in every enriched frame. *)
Lemma price_chart_enriched symbol (df enriched : DataFrame (option float)) :
  indicators df = Ok enriched → ∃ chart, price_chart symbol enriched = Ok chart.
Proof.
  intros (close & high & low & Hclose & Hhigh & Hlow & ->)%indicators_columns.
  unfold price_chart, getitem. cbn.
  repeat (first [ rewrite lookup_insert_eq
                | rewrite lookup_insert_ne by done
                | rewrite Hclose ]; cbn).
  by eexists.
Qed.

(** The two shapes of a returned decision. *)
Lemma make_decision_shape (data : DataFrame cell) :
  has_required_columns data →
  make_decision data = Ok HOLD
  ∨ ∃ entry tp sl,
      make_decision data = Ok ("BUY", Some entry, Some tp, Some sl, Some 2%Z).
Proof.
  intros Hreq.
  destruct (decide (len data < 200)%nat) as [Hshort|Hlong].
  { left. by apply make_decision_short. }
  assert (200 ≤ len data)%nat as Hlen by lia.
  destruct (has_required_latest data Hlen Hreq)
    as (c50 & c200 & cvol & ccl & csup & Hrow).
  rewrite (make_decision_latest _ _ _ _ _ _ Hlen Hrow).
  repeat (case_match; try (by left)).
  right. eauto.
Qed.



End page.


(** On the 210-bar example the run ends in the BUY banner. *)
Example run_on_long_history :
  last (main (λ _ _, Ok long_history) (Some "AAPL") "NASDAQ")
  = Some (Markdown
      ("<div style='background-color:#1b4332;padding:10px;border-radius:8px;color:white'>"
       +:+ "<strong>BUY</strong> at $309.00 | <strong>TP:</strong> $315.18 | "
       +:+ "<strong>SL:</strong> $302.82 | <strong>RR:</strong> 2:1</div>")).
Proof. by vm_compute. Qed.


(** ** Choosing the symbol *)

(** A run for a symbol never leaves just the prompt on the page. *)
Lemma run_is_not_the_prompt
      (yf_download : string → string → result (DataFrame (option float)))
      (symbol exchange : string) :
  symbol ≠ "" →
  main yf_download (Some symbol) exchange
  ≠ [Info "Please select or enter a stock symbol to continue."].
Proof.
  intros Hsym. unfold main.
  rewrite bool_decide_eq_false_2 by done.
  rewrite analysis_unfold.
  destruct (load_data yf_download symbol "1y") as [df|e]; [|done].
  destruct (indicators df) as [enriched|e]; [|done].
  destruct (price_chart symbol enriched) as [chart|e]; [|done].
  destruct (make_decision (to_cells enriched)) as [r|e]; [|done].
  cbn zeta.
  destruct (decision_box r _) as [page' res] eqn:Hbox.
  apply decision_box_appends in Hbox as [rest ->].
  by destruct res.
Qed.

(** X12.  The prompt is shown exactly when nothing usable was entered:
    the typed text is blank after [strip] and the dropdown is at its
    empty entry.  Otherwise a run takes place, for the typed text
    stripped and upper-cased if there is any, else for the dropdown's
    symbol.  ([upper] maps a non-empty string to a non-empty one, as
    [str.upper] does.) *)
Theorem prompt_exactly_without_symbol
        (strip upper : string → string)
        (yf_download : string → string → result (DataFrame (option float)))
        (selected_option custom_symbol exchange : string) :
  (∀ s, s ≠ "" → upper s ≠ "") →
  (main yf_download (final_symbol strip upper selected_option custom_symbol)
        exchange
   = [Info "Please select or enter a stock symbol to continue."]
   ↔ strip custom_symbol = "" ∧ selected_option = "")
  ∧ (strip custom_symbol ≠ "" →
     main yf_download (final_symbol strip upper selected_option custom_symbol)
          exchange
     = main yf_download (Some (upper (strip custom_symbol))) exchange)
  ∧ (strip custom_symbol = "" →
     main yf_download (final_symbol strip upper selected_option custom_symbol)
          exchange
     = main yf_download (Some selected_option) exchange).
Proof.
  intros Hupper. unfold final_symbol. split_and!.
  - repeat case_bool_decide.
    + split; [|by intros [? _]].
      intros Hmain. by apply run_is_not_the_prompt in Hmain; [|apply Hupper].
    + split; [|by intros [_ ?]].
      intros Hmain. by apply run_is_not_the_prompt in Hmain.
    + split; [intros _|done]. split; [|done].
      by destruct (decide (strip custom_symbol = "")).
  - intros Hcustom. by rewrite bool_decide_eq_true_2.
  - intros Hcustom. rewrite bool_decide_eq_false_2 by (by intros ?).
    case_bool_decide as Hsel; [done|].
    assert (selected_option = "") as ->.
    { by destruct (decide (selected_option = "")). }
    reflexivity.
Qed.

Lemma ascii_upper_nonempty (s : string) : s ≠ "" → ascii_upper s ≠ "".
Proof. by destruct s. Qed.

Lemma prompt_exactly_without_symbol_witness :
  main (λ _ _, Ok example_history)
       (final_symbol ascii_strip ascii_upper "MSFT" "  aapl ") "NYSE"
  = main (λ _ _, Ok example_history) (Some "AAPL") "NYSE"
  ∧ final_symbol ascii_strip ascii_upper "MSFT" "   " = Some "MSFT"
  ∧ main (λ _ _, Ok example_history)
         (final_symbol ascii_strip ascii_upper "" "  ") "NYSE"
    = [Info "Please select or enter a stock symbol to continue."].
Proof.
  split; [|split].
  - apply (prompt_exactly_without_symbol ascii_strip ascii_upper
             (λ _ _, Ok example_history) "MSFT" "  aapl " "NYSE"
             ascii_upper_nonempty).
    discriminate.
  - reflexivity.
  - apply (prompt_exactly_without_symbol ascii_strip ascii_upper
             (λ _ _, Ok example_history) "" "  " "NYSE"
             ascii_upper_nonempty).
    split; reflexivity.
Defined.

(** ** The key levels bound their window (float64) *)

Ltac compare_cases :=
  repeat match goal with
  | |- context [Z.compare ?a ?b] =>
      destruct (Z.compare_spec a b); try subst
  | |- context [Pos.compare ?a ?b] =>
      destruct (Pos.compare_spec a b); try subst
  | H : context [Z.compare ?a ?b] |- _ =>
      destruct (Z.compare_spec a b); try subst
  | H : context [Pos.compare ?a ?b] |- _ =>
      destruct (Pos.compare_spec a b); try subst
  end.

Lemma SFltb_asym (a b : spec_float) :
  SFltb a b = true → SFltb b a = false.
Proof.
  unfold SFltb, SFcompare.
  destruct a as [sa|sa| |sa ma ea], b as [sb|sb| |sb mb eb];
    try done; try (by destruct sa); try (by destruct sb);
    try (by destruct sa, sb).
  change (Pos.compare_cont Eq) with Pos.compare.
  destruct sa, sb; try done; cbn; compare_cases; cbn; try done; lia.
Qed.

(** [b <= a] and [c <= b] give [c <= a], unless [b] is NaN. *)
Lemma SFltb_neg_trans (a b c : spec_float) :
  b ≠ S754_nan →
  SFltb a b = false → SFltb b c = false → SFltb a c = false.
Proof.
  unfold SFltb, SFcompare. intros Hb.
  destruct a as [sa|sa| |sa ma ea], b as [sb|sb| |sb mb eb],
           c as [sc|sc| |sc mc ec];
    try done; try (by destruct sa, sb, sc); try (by destruct sa, sb);
    try (by destruct sb, sc); try (by destruct sa, sc).
  all: change (Pos.compare_cont Eq) with Pos.compare.
  all: destruct sa, sb, sc; try done; cbn; compare_cases; cbn;
    try done; try lia.
Qed.

Lemma not_nan_spec (x : float) :
  PrimFloat.is_nan x = false → Prim2SF x ≠ S754_nan.
Proof.
  unfold PrimFloat.is_nan. rewrite FloatAxioms.eqb_spec. unfold SFeqb.
  intros Hx Hnan. by rewrite Hnan in Hx.
Qed.

Lemma ltb_asym (x y : float) : (x <? y)%float = true → (y <? x)%float = false.
Proof. rewrite !ltb_spec. apply SFltb_asym. Qed.

Lemma ltb_neg_trans (x y z : float) :
  PrimFloat.is_nan y = false →
  (x <? y)%float = false → (y <? z)%float = false → (x <? z)%float = false.
Proof.
  intros Hy%not_nan_spec. rewrite !ltb_spec. by apply SFltb_neg_trans.
Qed.

Ltac in_list :=
  first [ assumption
        | apply list_elem_of_here
        | apply list_elem_of_further; in_list ].

(** The running maximum is at least its start and every element. *)
Lemma foldl_max_bound (xs : list float) (acc : float) :
  (∀ y, y ∈ acc :: xs → PrimFloat.is_nan y = false) →
  (foldl nmax acc xs <? acc)%float = false
  ∧ ∀ y, y ∈ xs → (foldl nmax acc xs <? y)%float = false.
Proof.
  revert acc. induction xs as [|z xs IH]; intros acc Hnan.
  { split; [apply ltb_irrefl|]. by intros y ?%elem_of_nil. }
  cbn [foldl].
  assert (PrimFloat.is_nan (nmax acc z) = false
          ∧ (nmax acc z <? acc)%float = false
          ∧ (nmax acc z <? z)%float = false) as (Hn & Hacc & Hz).
  { cbn. destruct (acc <? z)%float eqn:Hlt.
    - split_and!; [apply Hnan; in_list|by apply ltb_asym|apply ltb_irrefl].
    - split_and!; [apply Hnan; in_list|apply ltb_irrefl|done]. }
  destruct (IH (nmax acc z)) as [IHa IHb].
  { intros y [->|Hy]%elem_of_cons; [done|]. apply Hnan. in_list. }
  split.
  - by apply (ltb_neg_trans _ (nmax acc z)).
  - intros y [->|Hy]%elem_of_cons; [|by apply IHb].
    by apply (ltb_neg_trans _ (nmax acc z)).
Qed.

(** The running minimum is at most its start and every element. *)
Lemma foldl_min_bound (xs : list float) (acc : float) :
  (∀ y, y ∈ acc :: xs → PrimFloat.is_nan y = false) →
  (acc <? foldl nmin acc xs)%float = false
  ∧ ∀ y, y ∈ xs → (y <? foldl nmin acc xs)%float = false.
Proof.
  revert acc. induction xs as [|z xs IH]; intros acc Hnan.
  { split; [apply ltb_irrefl|]. by intros y ?%elem_of_nil. }
  cbn [foldl].
  assert (PrimFloat.is_nan (nmin acc z) = false
          ∧ (acc <? nmin acc z)%float = false
          ∧ (z <? nmin acc z)%float = false) as (Hn & Hacc & Hz).
  { cbn. destruct (z <? acc)%float eqn:Hlt.
    - split_and!; [apply Hnan; in_list|by apply ltb_asym|apply ltb_irrefl].
    - split_and!; [apply Hnan; in_list|apply ltb_irrefl|done]. }
  destruct (IH (nmin acc z)) as [IHa IHb].
  { intros y [->|Hy]%elem_of_cons; [done|]. apply Hnan. in_list. }
  split.
  - by apply (ltb_neg_trans _ (nmin acc z)).
  - intros y [->|Hy]%elem_of_cons; [|by apply IHb].
    by apply (ltb_neg_trans _ (nmin acc z)).
Qed.

Lemma maximum_bound (xs : list float) (y : float) :
  (∀ x, x ∈ xs → PrimFloat.is_nan x = false) →
  y ∈ xs → (maximum xs <? y)%float = false.
Proof.
  destruct xs as [|x xs]; [by intros _ ?%elem_of_nil|].
  intros Hnan [->|Hy]%elem_of_cons; cbn [maximum];
    destruct (foldl_max_bound xs x Hnan) as [Ha Hb]; [done|by apply Hb].
Qed.

Lemma minimum_bound (xs : list float) (y : float) :
  (∀ x, x ∈ xs → PrimFloat.is_nan x = false) →
  y ∈ xs → (y <? minimum xs)%float = false.
Proof.
  destruct xs as [|x xs]; [by intros _ ?%elem_of_nil|].
  intros Hnan [->|Hy]%elem_of_cons; cbn [minimum];
    destruct (foldl_min_bound xs x Hnan) as [Ha Hb]; [done|by apply Hb].
Qed.

(** The observations a rolling value aggregates are the values of the
    rows of its window. *)
Lemma rolling_window_member {num} `{Arith num} w (agg : list num → num)
      (xs : list (option num)) t v :
  value_at (rolling w agg xs) t v →
  ∃ obs, v = agg obs
         ∧ (∀ i x, (S t - w ≤ i ≤ t)%nat → value_at xs i x → x ∈ obs)
         ∧ (∀ x, x ∈ obs → ∃ i, (S t - w ≤ i ≤ t)%nat ∧ value_at xs i x).
Proof.
  intros (Hw & Ht & obs & Hobs & Hlen & ->)%rolling_value.
  exists obs. split; [done|]. split.
  - intros i x Hi Hx.
    apply list_elem_of_lookup. exists (i - (S t - w))%nat.
    assert (take w (drop (S t - w) xs) !! (i - (S t - w))%nat
            = Some (Some x)) as Hlook.
    { rewrite lookup_take_lt, lookup_drop by lia.
      replace (S t - w + (i - (S t - w)))%nat with i by lia. exact Hx. }
    rewrite <- Hobs, list_lookup_fmap in Hlook.
    destruct (obs !! (i - (S t - w))%nat); by simplify_eq/=.
  - intros x [j Hj]%list_elem_of_lookup.
    pose proof (lookup_lt_Some _ _ _ Hj) as Hjw.
    exists (S t - w + j)%nat. split; [lia|].
    unfold value_at. rewrite <- lookup_drop, <- (lookup_take_lt _ w) by lia.
    by rewrite <- Hobs, list_lookup_fmap, Hj.
Qed.

(** A column whose present values pass the check holds no NaN. *)
Lemma no_nan_check (xs : list (option float)) :
  forallb (λ o, match o with
                | Some x => negb (PrimFloat.is_nan x)
                | None => true
                end) xs = true →
  ∀ i x, value_at xs i x → PrimFloat.is_nan x = false.
Proof.
  intros Hall i x Hx. rewrite forallb_forall in Hall.
  specialize (Hall (Some x)). cbn in Hall.
  apply negb_true_iff, Hall, list_elem_of_In, list_elem_of_lookup.
  by exists i.
Qed.

(** X13.  On float64 columns without NaN values, the key levels bound
    their windows: no High of the 30 rows ending at [t] is above
    Resistance(t), no Low of them is below Support(t); and when Low is
    not above High on each bar, Support(t) is not above Resistance(t). *)
Theorem key_levels_bound_the_window
        (df : DataFrame (option float))
        (high low resistance support : list (option float)) :
  columns df !! "High" = Some high →
  columns df !! "Low" = Some low →
  (∀ i x, value_at high i x → PrimFloat.is_nan x = false) →
  (∀ i x, value_at low i x → PrimFloat.is_nan x = false) →
  key_levels df = Ok (resistance, support) →
  (∀ t r i h, value_at resistance t r → (t - 29 ≤ i ≤ t)%nat →
              value_at high i h → (r <? h)%float = false)
  ∧ (∀ t s i l, value_at support t s → (t - 29 ≤ i ≤ t)%nat →
                value_at low i l → (l <? s)%float = false)
  ∧ ((∀ i l h, value_at low i l → value_at high i h →
               (h <? l)%float = false) →
     ∀ t s r, value_at support t s → value_at resistance t r →
              (r <? s)%float = false).
Proof.
  intros Hhigh Hlow Nhigh Nlow Hkl.
  unfold key_levels, getitem in Hkl. rewrite Hhigh, Hlow in Hkl. cbn in Hkl.
  injection Hkl as <- <-.
  assert (∀ t r i h, value_at (rolling 30 maximum high) t r →
                     (t - 29 ≤ i ≤ t)%nat → value_at high i h →
                     (r <? h)%float = false) as Hres.
  { intros t r i h Hr Hi Hh.
    pose proof Hr as (Hw & _)%rolling_value.
    destruct (rolling_window_member _ _ _ _ _ Hr) as (obs & -> & Hin & Hout).
    apply maximum_bound; [|apply (Hin i); [lia|done]].
    intros x (j & _ & Hj)%Hout. by eapply Nhigh. }
  assert (∀ t s i l, value_at (rolling 30 minimum low) t s →
                     (t - 29 ≤ i ≤ t)%nat → value_at low i l →
                     (l <? s)%float = false) as Hsup.
  { intros t s i l Hs Hi Hl.
    pose proof Hs as (Hw & _)%rolling_value.
    destruct (rolling_window_member _ _ _ _ _ Hs) as (obs & -> & Hin & Hout).
    apply minimum_bound; [|apply (Hin i); [lia|done]].
    intros x (j & _ & Hj)%Hout. by eapply Nlow. }
  split; [exact Hres|]. split; [exact Hsup|].
  intros Hbar t s r Hs Hr.
  assert (defined_at high t ∧ defined_at low t) as [[h Hh] [l Hl]].
  { split.
    - assert (defined_at (rolling 30 maximum high) t) as Hd by by exists r.
      apply rolling_defined in Hd as [_ Hd]; [|lia]. apply Hd. lia.
    - assert (defined_at (rolling 30 minimum low) t) as Hd by by exists s.
      apply rolling_defined in Hd as [_ Hd]; [|lia]. apply Hd. lia. }
  apply (ltb_neg_trans _ l); [by eapply Nlow| |apply (Hsup t s t l); [done|lia|done]].
  apply (ltb_neg_trans _ h); [by eapply Nhigh| |by apply (Hbar t)].
  apply (Hres t r t h); [done|lia|done].
Qed.

Lemma key_levels_bound_the_window_witness :
  ∃ resistance support,
    key_levels example_history = Ok (resistance, support)
    ∧ (∀ t r i h, value_at resistance t r → (t - 29 ≤ i ≤ t)%nat →
                  value_at (example_column 101) i h → (r <? h)%float = false)
    ∧ (∀ t s i l, value_at support t s → (t - 29 ≤ i ≤ t)%nat →
                  value_at (example_column 99) i l → (l <? s)%float = false).
Proof.
  exists (rolling 30 maximum (example_column 101)),
         (rolling 30 minimum (example_column 99)).
  split; [reflexivity|].
  destruct (key_levels_bound_the_window example_history
              (example_column 101) (example_column 99)
              (rolling 30 maximum (example_column 101))
              (rolling 30 minimum (example_column 99)))
    as (Hres & Hsup & _).
  - reflexivity.
  - reflexivity.
  - apply no_nan_check. vm_compute. reflexivity.
  - apply no_nan_check. vm_compute. reflexivity.
  - reflexivity.
  - split; [exact Hres|exact Hsup].
Defined.

Example key_levels_of_example :
  columns example_enriched !! "Resistance" ≫= (λ col, col !! 59%nat)
  = Some (Some 160%float)
  ∧ columns example_enriched !! "Support" ≫= (λ col, col !! 59%nat)
    = Some (Some 129%float).
Proof. split; by vm_compute. Qed.
